(** * xl: formatting helpers over a spreadsheet library

    A shallow embedding of [xl.py].  The module is a layer of forwarding
    functions over the spreadsheet library: each helper either builds a
    style descriptor or assigns one to an attribute of a cell.

    - A cell is a mutable object, so cells live in a heap ([gmap loc Cell])
      and the helpers receive a reference.
    - A helper is a computation in the monad [Py]: it threads the heap and
      may raise.  What was written before a raise stays written.
    - The spreadsheet library itself is not part of the module.  Its style
      descriptors are records of the keyword arguments they were built
      from ([None] for an argument that was not passed); which argument
      values it rejects, and with which exception, is left to the interface
      [Openpyxl].  Assigning a freshly built descriptor stores it in the
      cell.  Reading a style attribute returns the library's proxy of the
      stored descriptor: it reads like the descriptor, but the setter of a
      style attribute refuses it. *)

From Stdlib Require Import Ascii String ZArith.
From stdpp Require Import gmap strings fin_maps.

(** ** Exceptions *)

Record exn := Raise { exn_class : string; exn_message : string }.

(** ** Style descriptors of the library *)

Record Font := mkFont {
  font_bold : option bool;
  font_color : option string;
  font_name : option string;
  font_size : option Z }.

Record PatternFill := mkPatternFill {
  fill_type : option string;
  fill_start_color : option string;
  fill_end_color : option string }.

Record Side := mkSide {
  side_style : option string;
  side_color : option string }.

Record Border := mkBorder {
  border_bottom : option Side;
  border_left : option Side;
  border_right : option Side;
  border_top : option Side }.

Record Alignment := mkAlignment { horizontal : option string }.

Record Comment := mkComment {
  comment_text : string;
  comment_author : string }.

(** ** Cells *)

Inductive Literal :=
  | LNone
  | LInt (n : Z)
  | LStr (s : string).

(** What reading [cell.value] yields: a plain value or a formula string. *)
Inductive Value :=
  | Lit (v : Literal)
  | FormulaStr (f : string).

Record Cell := mkCell {
  cell_value : Value;
  cell_font : Font;
  cell_fill : PatternFill;
  cell_border : Border;
  cell_alignment : Alignment;
  cell_comment : option Comment;
  cell_number_format : string }.

(** The attribute assignments [cell.attr = v]. *)
Definition set_font (v : Font) (c : Cell) : Cell :=
  mkCell (cell_value c) v (cell_fill c) (cell_border c) (cell_alignment c)
         (cell_comment c) (cell_number_format c).
Definition set_fill (v : PatternFill) (c : Cell) : Cell :=
  mkCell (cell_value c) (cell_font c) v (cell_border c) (cell_alignment c)
         (cell_comment c) (cell_number_format c).
Definition set_border (v : Border) (c : Cell) : Cell :=
  mkCell (cell_value c) (cell_font c) (cell_fill c) v (cell_alignment c)
         (cell_comment c) (cell_number_format c).
Definition set_alignment (v : Alignment) (c : Cell) : Cell :=
  mkCell (cell_value c) (cell_font c) (cell_fill c) (cell_border c) v
         (cell_comment c) (cell_number_format c).
Definition set_comment (v : option Comment) (c : Cell) : Cell :=
  mkCell (cell_value c) (cell_font c) (cell_fill c) (cell_border c)
         (cell_alignment c) v (cell_number_format c).
Definition set_number_format (v : string) (c : Cell) : Cell :=
  mkCell (cell_value c) (cell_font c) (cell_fill c) (cell_border c)
         (cell_alignment c) (cell_comment c) v.

(** ** The heap of cells and the monad of the helpers *)

Definition loc := positive.
Abbreviation heap := (gmap loc Cell).

Definition Py (A : Type) : Type := heap → (exn + A) * heap.

Definition returns {A} (x : A) : Py A := λ s, (inr x, s).
Definition raise {A} (e : exn) : Py A := λ s, (inl e, s).
Definition bind {A B} (m : Py A) (k : A → Py B) : Py B :=
  λ s, match m s with
       | (inr x, s') => k x s'
       | (inl e, s') => (inl e, s')
       end.

(** A call into the library: its result or its exception, heap untouched. *)
Definition call {A} (r : exn + A) : Py A := λ s, (r, s).

Notation "'let*' x := m 'in' k" := (bind m (λ x, k))
  (at level 10, x name, m at level 100, k at level 200).
Notation "m ;;; k" := (bind m (λ _, k))
  (at level 100, k at level 200, right associativity).

(** A reference that does not denote a cell has none of its attributes. *)
Definition not_a_cell : exn := Raise "AttributeError" "object is not a cell".

Definition getattr {A} (cell : loc) (field : Cell → A) : Py A :=
  λ s, match s !! cell with
       | Some c => (inr (field c), s)
       | None => (inl not_a_cell, s)
       end.

Definition setattr (cell : loc) (assign : Cell → Cell) : Py unit :=
  λ s, match s !! cell with
       | Some c => (inr tt, <[cell := assign c]> s)
       | None => (inl not_a_cell, s)
       end.

(** What a style read returns is the library's proxy of the stored
    descriptor.  The setter of a style attribute indexes the assigned
    object by its hash, and the proxy has none: assigning one raises and
    the cell keeps what it had. *)
Definition unhashable_proxy : exn :=
  Raise "TypeError" "unhashable type: 'StyleProxy'".

Definition setattr_proxy {A} (cell : loc) (assign : A → Cell → Cell)
    (proxied : A) : Py unit :=
  λ s, match s !! cell with
       | Some _ => (inl unhashable_proxy, s)
       | None => (inl not_a_cell, s)
       end.

(** ** Documents on disk and workbooks *)

(** A stored cell holds a plain value, or a formula together with the value
    cached for it when the file was last saved. *)
Inductive Stored :=
  | Plain (v : Literal)
  | Formula (f : string) (cached : Literal).

Abbreviation Document := (gmap string Stored).

(** A workbook, seen through the values its cells yield, by coordinate. *)
Abbreviation Workbook := (gmap string Value).

(** ** The interface of the spreadsheet library

    Each [check_*] answers [None] when the library accepts the argument
    and [Some e] when it raises [e] for it. *)
Class Openpyxl := {
  check_color : string → option exn;
  check_border_style : string → option exn;
  check_fill_type : string → option exn;
  check_horizontal : string → option exn;
  open_error : string → exn;
  disk : gmap string Document }.

Section Library.
Context `{!Openpyxl}.

(** [None] arguments are not validated. *)
Definition validate (check : string → option exn) (arg : option string)
  : option exn := arg ≫= check.

Definition Font_init (bold : option bool) (color name : option string)
    (size : option Z) : exn + Font :=
  match validate check_color color with
  | Some e => inl e
  | None => inr (mkFont bold color name size)
  end.

Definition PatternFill_init (start_color end_color fill_type : option string)
  : exn + PatternFill :=
  match validate check_fill_type fill_type with
  | Some e => inl e
  | None =>
    match validate check_color start_color with
    | Some e => inl e
    | None =>
      match validate check_color end_color with
      | Some e => inl e
      | None => inr (mkPatternFill fill_type start_color end_color)
      end
    end
  end.

Definition Side_init (style color : option string) : exn + Side :=
  match validate check_border_style style with
  | Some e => inl e
  | None =>
    match validate check_color color with
    | Some e => inl e
    | None => inr (mkSide style color)
    end
  end.

Definition Border_init (bottom left right top : option Side) : exn + Border :=
  inr (mkBorder bottom left right top).

Definition Alignment_init (horizontal : option string) : exn + Alignment :=
  match validate check_horizontal horizontal with
  | Some e => inl e
  | None => inr (mkAlignment horizontal)
  end.

Definition Comment_init (text author : string) : exn + Comment :=
  inr (mkComment text author).

Definition Workbook_init : exn + Workbook := inr ∅.

(** Modelled from the spec: the library's loader, which is not part of
    the module.  It loads the document at a path, resolving formulas to
    their cached values when [data_only] is set and preserving the
    formulas otherwise; a path that names no document raises. *)
Definition read_stored (data_only : bool) (c : Stored) : Value :=
  match c with
  | Plain v => Lit v
  | Formula f cached => if data_only then Lit cached else FormulaStr f
  end.

Definition load_workbook (filename : string) (data_only : bool)
  : exn + Workbook :=
  match disk !! filename with
  | Some doc => inr (read_stored data_only <$> doc)
  | None => inl (open_error filename)
  end.

(** ** The module *)

Definition create_wb : Py Workbook := call Workbook_init.

Definition load_wb (filename : string) (data_only : option bool)
  : Py Workbook :=
  let data_only := default false data_only in
  call (load_workbook filename data_only).

Definition apply_font (cell : loc) (bold : option bool)
    (color name : option string) (size : option Z) : Py unit :=
  let bold := default false bold in
  let color := default "00000000" color in
  let name := default "Arial" name in
  let size := default 10%Z size in
  let* f := call (Font_init (Some bold) (Some color) (Some name) (Some size)) in
  setattr cell (set_font f).

Definition apply_fill (cell : loc) (color : string) : Py unit :=
  let* f := call (PatternFill_init (Some color) (Some color) (Some "solid")) in
  setattr cell (set_fill f).

Definition get_side (style color : option string) : Py Side :=
  let style := default "medium" style in
  let color := default "000000" color in
  call (Side_init (Some style) (Some color)).

Definition get_border (bottom left right top : option Side) : Py Border :=
  call (Border_init bottom left right top).

(** The result is read back from the cell: it is the proxy of the
    alignment stored there, given here by the alignment it stands for. *)
Definition apply_center_alignment (cell : loc) : Py Alignment :=
  let* a := call (Alignment_init (Some "center")) in
  setattr cell (set_alignment a) ;;;
  getattr cell cell_alignment.

(** What [apply_center_alignment] returned is a proxy, and the second
    line assigns it to the cell. *)
Definition apply_header_cell (cell : loc) : Py unit :=
  let* a := apply_center_alignment cell in
  setattr_proxy cell set_alignment a ;;;
  let* side := get_side None None in
  let* b := get_border (Some side) None None None in
  setattr cell (set_border b) ;;;
  let* f := call (Font_init (Some true) None None None) in
  setattr cell (set_font f).

Definition add_comment (cell : loc) (comment author : string) : Py unit :=
  let* c := call (Comment_init comment author) in
  setattr cell (set_comment (Some c)).

Definition apply_number_format (cell : loc) (format : option string)
  : Py unit :=
  let format := default "R$ #,##0.00" format in
  setattr cell (set_number_format format).

(** The library accepts the default side of [get_side]. *)
Definition accepts_default_side : Prop :=
  check_border_style "medium" = None ∧ check_color "000000" = None.

End Library.

(** ** Vocabulary of the properties *)

(** [m] returns normally from [s] and leaves [v] in the attribute [field]
    of [cell]. *)
Definition assigns {A} (m : Py unit) (cell : loc) (field : Cell → A) (v : A)
    (s : heap) : Prop :=
  ∃ s', m s = (inr tt, s') ∧ field <$> s' !! cell = Some v.

Inductive attribute :=
  | AValue | AFont | AFill | ABorder | AAlignment | AComment | ANumberFormat.

Definition same_attribute (a : attribute) (c c' : Cell) : Prop :=
  match a with
  | AValue => cell_value c' = cell_value c
  | AFont => cell_font c' = cell_font c
  | AFill => cell_fill c' = cell_fill c
  | ABorder => cell_border c' = cell_border c
  | AAlignment => cell_alignment c' = cell_alignment c
  | AComment => cell_comment c' = cell_comment c
  | ANumberFormat => cell_number_format c' = cell_number_format c
  end.

(** From [s] to [s'] nothing changed but, at most, the attributes [targets]
    of [cell]: every other cell is as it was, no cell appeared or vanished,
    and [cell] kept every attribute outside [targets]. *)
Definition modifies_only (targets : list attribute) (cell : loc)
    (s s' : heap) : Prop :=
  (∀ other, other ≠ cell → s' !! other = s !! other)
  ∧ option_Forall2 (λ c c', ∀ a, a ∉ targets → same_attribute a c c')
      (s !! cell) (s' !! cell).

(** [m] either returns or leaves the heap as it found it. *)
Definition all_or_nothing {A} (m : Py A) (s : heap) : Prop :=
  ∀ e s', m s = (inl e, s') → s' = s.

(** The cell as [apply_center_alignment] leaves it. *)
Definition centered (c : Cell) : Cell :=
  set_alignment (mkAlignment (Some "center")) c.

(** ** Calls of the cell helpers *)

(** [m] returns from [s]. *)
Definition succeeds {A} (m : Py A) (s : heap) : Prop :=
  ∃ x s', m s = (inr x, s').

(** One call of a helper that formats a cell, with its arguments. *)
Inductive formatting :=
  | SetFont (bold : option bool) (color name : option string) (size : option Z)
  | SetFill (color : string)
  | Center
  | Header
  | SetComment (comment author : string)
  | SetNumberFormat (format : option string).

(** The attributes the call is about. *)
Definition targets (a : formatting) : list attribute :=
  match a with
  | SetFont _ _ _ _ => [AFont]
  | SetFill _ => [AFill]
  | Center => [AAlignment]
  | Header => [AAlignment; ABorder; AFont]
  | SetComment _ _ => [AComment]
  | SetNumberFormat _ => [ANumberFormat]
  end.

Section Formatting.
Context `{!Openpyxl}.

(** The call as a statement: a result, if any, is dropped. *)
Definition perform (a : formatting) (cell : loc) : Py unit :=
  match a with
  | SetFont bold color name size => apply_font cell bold color name size
  | SetFill color => apply_fill cell color
  | Center => apply_center_alignment cell ;;; returns tt
  | Header => apply_header_cell cell
  | SetComment comment author => add_comment cell comment author
  | SetNumberFormat format => apply_number_format cell format
  end.

(** The first exception, if any, among the answers of the library. *)
Definition first_refusal (checks : list (option exn)) : option exn :=
  foldr (λ r rest, match r with Some e => Some e | None => rest end) None checks.

(** The exception, if any, that the call raises on a cell: what the
    library raises for the descriptors the call builds and, for
    [apply_header_cell], for the proxy it assigns. *)
Definition refusal (a : formatting) : option exn :=
  match a with
  | SetFont _ color _ _ => check_color (default "00000000" color)
  | SetFill color =>
    first_refusal [check_fill_type "solid"; check_color color]
  | Center => check_horizontal "center"
  | Header => first_refusal [check_horizontal "center"; Some unhashable_proxy]
  | SetComment _ _ | SetNumberFormat _ => None
  end.

(** What the call has written to the cell when the library refused none
    of its descriptors. *)
Definition effect (a : formatting) : Cell → Cell :=
  match a with
  | SetFont bold color name size =>
    set_font (mkFont (Some (default false bold))
                (Some (default "00000000" color))
                (Some (default "Arial" name)) (Some (default 10%Z size)))
  | SetFill color =>
    set_fill (mkPatternFill (Some "solid") (Some color) (Some color))
  | Center => set_alignment (mkAlignment (Some "center"))
  | Header => centered
  | SetComment comment author => set_comment (Some (mkComment comment author))
  | SetNumberFormat format =>
    set_number_format (default "R$ #,##0.00" format)
  end.

End Formatting.

(** ** A sample library

    Used to run the helpers on concrete inputs: it accepts aRGB colours
    written as six or eight hexadecimal digits and the usual names of
    border styles, fill types and horizontal alignments, and its disk
    holds one document. *)

Definition is_hex_digit (a : ascii) : bool :=
  let n := nat_of_ascii a in
  ((48 <=? n) && (n <=? 57)) || ((65 <=? n) && (n <=? 70))
  || ((97 <=? n) && (n <=? 102)).

Definition is_argb_hex (color : string) : bool :=
  let digits := list_ascii_of_string color in
  forallb is_hex_digit digits
  && ((List.length digits =? 6) || (List.length digits =? 8)).

Definition one_of (allowed : list string) (what : string) (arg : string)
  : option exn :=
  if bool_decide (arg ∈ allowed) then None
  else Some (Raise "ValueError" what).

Definition sample_document : Document :=
  {[ "A1" := Plain (LInt 2);
     "A2" := Plain (LStr "total");
     "B1" := Formula "=A1*21" (LInt 42);
     "B2" := Formula "=B1+1" LNone ]}.

Definition sample_library : Openpyxl := {|
  check_color color :=
    if is_argb_hex color then None
    else Some (Raise "ValueError" "Colors must be aRGB hex values");
  check_border_style :=
    one_of ["dashDot"; "dashDotDot"; "dashed"; "dotted"; "double"; "hair";
            "medium"; "mediumDashDot"; "mediumDashDotDot"; "mediumDashed";
            "slantDashDot"; "thick"; "thin"] "unsupported border style";
  check_fill_type :=
    one_of ["solid"; "darkGray"; "mediumGray"; "lightGray"; "gray125";
            "gray0625"] "unsupported fill type";
  check_horizontal :=
    one_of ["general"; "left"; "center"; "right"; "fill"; "justify";
            "centerContinuous"; "distributed"] "unsupported alignment";
  open_error filename := Raise "FileNotFoundError" filename;
  disk := {[ "book.xlsx" := sample_document ]} |}.

Definition blank_cell : Cell :=
  mkCell (Lit LNone) (mkFont None None None None)
         (mkPatternFill None None None) (mkBorder None None None None)
         (mkAlignment None) None "General".

Definition sample_cell : Cell :=
  mkCell (Lit (LInt 7)) (mkFont (Some false) (Some "FF0000") (Some "Courier") (Some 14%Z))
         (mkPatternFill (Some "solid") (Some "FFFF00") (Some "FFFF00"))
         (mkBorder None None None (Some (mkSide (Some "thin") (Some "000000"))))
         (mkAlignment (Some "right")) (Some (mkComment "check" "ana")) "0.00%".

Definition sample_heap : heap := {[ 1%positive := sample_cell; 2%positive := blank_cell ]}.

(** * Properties *)

Ltac unfold_helpers :=
  unfold apply_header_cell, apply_center_alignment, apply_font, apply_fill,
    add_comment, apply_number_format, get_side, get_border, load_wb,
    create_wb in *.
Ltac unfold_library :=
  unfold Font_init, PatternFill_init, Side_init, Border_init, Alignment_init,
    Comment_init, Workbook_init, load_workbook, validate in *.
Ltac unfold_py :=
  unfold bind, call, returns, raise, setattr, setattr_proxy, getattr in *.
Ltac run := unfold_helpers; unfold_library; unfold_py; simpl in *.

(** Every cell but the target is untouched. *)
Ltac frame_others :=
  run; repeat case_match; simplify_eq/=;
  by rewrite ?lookup_insert_ne by done.

(** The target keeps the attributes outside the helper's targets. *)
Ltac frame_cell :=
  match goal with
  | |- option_Forall2 _ (?s !! ?l) _ =>
    let Hc := fresh "Hc" in
    destruct (s !! l) eqn:Hc; run; rewrite ?Hc;
    repeat case_match; simplify_map_eq; rewrite ?Hc; constructor;
    let a := fresh "a" in let Ha := fresh "Ha" in
    intros a Ha; destruct a; try done; exfalso; apply Ha; set_solver
  end.

Section Properties.
Context `{!Openpyxl}.
Implicit Types (cell : loc) (c : Cell) (s : heap) (e : exn).

(** *** How the helpers run on an allocated cell *)

Lemma apply_center_alignment_run cell c s :
  check_horizontal "center" = None →
  s !! cell = Some c →
  apply_center_alignment cell s
  = (inr (mkAlignment (Some "center")),
     <[cell := set_alignment (mkAlignment (Some "center")) c]> s).
Proof.
  intros Hcenter Hc. run. rewrite Hcenter, Hc. by rewrite lookup_insert_eq.
Qed.

Lemma apply_header_cell_run cell c s :
  check_horizontal "center" = None →
  s !! cell = Some c →
  apply_header_cell cell s
  = (inl unhashable_proxy, <[cell := centered c]> s).
Proof.
  intros Hcenter Hc. unfold apply_header_cell, bind at 1.
  rewrite (apply_center_alignment_run _ c) by done.
  unfold bind, setattr_proxy. by rewrite lookup_insert_eq.
Qed.

Lemma apply_font_run cell c s bold color name size v :
  Font_init (Some (default false bold)) (Some (default "00000000" color))
    (Some (default "Arial" name)) (Some (default 10%Z size)) = inr v →
  s !! cell = Some c →
  apply_font cell bold color name size s
  = (inr tt, <[cell := set_font v c]> s).
Proof.
  intros Hv Hc. unfold apply_font, bind, call, setattr. by rewrite Hv, Hc.
Qed.

Lemma apply_fill_run cell c s color v :
  PatternFill_init (Some color) (Some color) (Some "solid") = inr v →
  s !! cell = Some c →
  apply_fill cell color s = (inr tt, <[cell := set_fill v c]> s).
Proof.
  intros Hv Hc. unfold apply_fill, bind, call, setattr. by rewrite Hv, Hc.
Qed.

(** However [apply_header_cell] runs, it raises: what the library raises
    for the centred alignment, the refusal of the proxy, or the failure of
    a reference that is no cell. *)
Lemma apply_header_cell_outcome cell s :
  (∃ e, apply_header_cell cell s = (inl e, s))
  ∨ (∃ c,
       check_horizontal "center" = None
       ∧ s !! cell = Some c
       ∧ apply_header_cell cell s
         = (inl unhashable_proxy, <[cell := centered c]> s)).
Proof.
  destruct (check_horizontal "center") as [e|] eqn:Hcenter.
  { left. exists e. run. by rewrite Hcenter. }
  destruct (s !! cell) as [c|] eqn:Hc.
  - right. exists c. by rewrite (apply_header_cell_run _ c).
  - left. exists not_a_cell. run. by rewrite Hcenter, Hc.
Qed.


(** *** Assigning twice *)



(** *** The claims *)

(** C1: the code does not do what the claim and its docstring say.  On
    a cell, [apply_header_cell] centres the alignment and then raises the
    refusal of the proxy it assigns back: it does not return, and the
    border and the font of the cell are what they were. *)
Theorem apply_header_cell_stops_after_centering cell c s :
  check_horizontal "center" = None →
  s !! cell = Some c →
  ∃ s' c',
    apply_header_cell cell s = (inl unhashable_proxy, s')
    ∧ s' !! cell = Some c'
    ∧ horizontal (cell_alignment c') = Some "center"
    ∧ cell_border c' = cell_border c
    ∧ cell_font c' = cell_font c.
Proof.
  intros Hcenter Hc. eexists _, (centered c).
  split; [by apply apply_header_cell_run|].
  split; [by rewrite lookup_insert_eq|]. done.
Qed.

(** C2: each helper leaves in the attribute it is about the very
    descriptor that the library builds from the helper's parameters:
    [apply_font] the font, [apply_fill] a solid pattern fill whose start
    and end colours are the given colour, [add_comment] the comment, and
    [apply_number_format] the format string. *)
Theorem helpers_assign_constructed cell c s :
  s !! cell = Some c →
  (∀ bold color name size v,
     Font_init (Some bold) (Some color) (Some name) (Some size) = inr v →
     assigns (apply_font cell (Some bold) (Some color) (Some name) (Some size))
       cell cell_font v s)
  ∧ (∀ color v,
       PatternFill_init (Some color) (Some color) (Some "solid") = inr v →
       assigns (apply_fill cell color) cell cell_fill v s
       ∧ fill_type v = Some "solid"
       ∧ fill_start_color v = Some color
       ∧ fill_end_color v = Some color)
  ∧ (∀ comment author v,
       Comment_init comment author = inr v →
       assigns (add_comment cell comment author) cell cell_comment (Some v) s)
  ∧ (∀ format,
       assigns (apply_number_format cell (Some format))
         cell cell_number_format format s).
Proof.
  intros Hc. unfold assigns. repeat split.
  - intros bold color name size v Hv. eexists. split.
    + by apply apply_font_run.
    + by rewrite lookup_insert_eq.
  - eexists. split; [by apply apply_fill_run|]. by rewrite lookup_insert_eq.
  - run. repeat case_match; naive_solver.
  - run. repeat case_match; naive_solver.
  - run. repeat case_match; naive_solver.
  - intros comment author v Hv. run. rewrite Hc. eexists. split; [done|].
    rewrite lookup_insert_eq. naive_solver.
  - intros format. run. rewrite Hc. eexists. split; [done|].
    by rewrite lookup_insert_eq.
Qed.

(** C3: a parameter that is left out takes its documented default.
    [apply_font] with only a cell stores the font of name "Arial", size
    10, bold [False] and the black colour "00000000";
    [apply_number_format] with only a cell stores "R$ #,##0.00";
    [get_side] without arguments returns the side of style "medium" and
    colour "000000". *)
Theorem documented_defaults cell c s :
  s !! cell = Some c →
  check_color "00000000" = None →
  accepts_default_side →
  assigns (apply_font cell None None None None) cell cell_font
    (mkFont (Some false) (Some "00000000") (Some "Arial") (Some 10%Z)) s
  ∧ assigns (apply_number_format cell None) cell cell_number_format
      "R$ #,##0.00" s
  ∧ get_side None None s = (inr (mkSide (Some "medium") (Some "000000")), s).
Proof.
  intros Hc Hblack (Hmedium & Hside). split; [|split].
  - eexists. split.
    + apply apply_font_run; [|done]. unfold Font_init, validate. simpl.
      by rewrite Hblack.
    + by rewrite lookup_insert_eq.
  - eexists. split.
    + unfold apply_number_format, setattr. by rewrite Hc.
    + by rewrite lookup_insert_eq.
  - unfold get_side, call, Side_init, validate. simpl.
    by rewrite Hmedium, Hside.
Qed.


(** C4: [load_wb] loads the document stored at the given path; left
    out, [data_only] is [False] and formula cells yield their formula
    strings; with [data_only] set, every formula cell of the workbook
    yields its cached value and no cell yields a formula string. *)
Theorem load_wb_data_only filename doc s :
  disk !! filename = Some doc →
  load_wb filename None s = load_wb filename (Some false) s
  ∧ (∃ wb,
       load_wb filename None s = (inr wb, s)
       ∧ dom wb = dom doc
       ∧ (∀ k v, doc !! k = Some (Plain v) → wb !! k = Some (Lit v))
       ∧ (∀ k f cached,
            doc !! k = Some (Formula f cached) →
            wb !! k = Some (FormulaStr f)))
  ∧ (∃ wb,
       load_wb filename (Some true) s = (inr wb, s)
       ∧ dom wb = dom doc
       ∧ (∀ k v, doc !! k = Some (Plain v) → wb !! k = Some (Lit v))
       ∧ (∀ k f cached,
            doc !! k = Some (Formula f cached) →
            wb !! k = Some (Lit cached))
       ∧ (∀ k f, wb !! k ≠ Some (FormulaStr f))).
Proof.
  intros Hdoc. split; [done|]. run. rewrite Hdoc.
  split; eexists; (split; [done|]); (split; [by rewrite dom_fmap_L|]).
  - split; intros k ? *; rewrite lookup_fmap; by intros ->.
  - repeat split; try (intros k ? *; rewrite lookup_fmap; by intros ->).
    intros k f. rewrite lookup_fmap.
    destruct (doc !! k) as [[]|]; naive_solver.
Qed.

(** C5: for every choice of the four optional sides, [get_border]
    returns a border whose bottom, left, right and top are the sides
    given, [None] where a side was left out; without arguments all four
    sides are [None]. *)
Theorem get_border_sides (bottom left right top : option Side) s :
  (∃ b,
     get_border bottom left right top s = (inr b, s)
     ∧ border_bottom b = bottom
     ∧ border_left b = left
     ∧ border_right b = right
     ∧ border_top b = top)
  ∧ get_border None None None None s
    = (inr (mkBorder None None None None), s).
Proof. split; [|done]. by eexists. Qed.

(** C6: [apply_center_alignment] sets the alignment of the cell to one
    whose horizontal position is "center", and returns the alignment
    that the cell holds after the call. *)
Theorem apply_center_alignment_returns_stored cell c s :
  check_horizontal "center" = None →
  s !! cell = Some c →
  ∃ a s',
    apply_center_alignment cell s = (inr a, s')
    ∧ horizontal a = Some "center"
    ∧ cell_alignment <$> s' !! cell = Some a.
Proof.
  intros Hcenter Hc. eexists _, _.
  split; [by apply apply_center_alignment_run|].
  split; [done|]. by rewrite lookup_insert_eq.
Qed.


(** C7: a helper changes nothing but the attribute it is about:
    whatever its arguments and whether it returns or raises, the value
    and the other attributes of the cell, and every other cell, are as
    before; [apply_header_cell] is about the alignment, the border and
    the font.  [get_side] and [get_border] leave the heap as it is. *)
Theorem helpers_frame cell s :
  (∀ bold color name size,
     modifies_only [AFont] cell s (apply_font cell bold color name size s).2)
  ∧ (∀ color, modifies_only [AFill] cell s (apply_fill cell color s).2)
  ∧ modifies_only [AAlignment] cell s (apply_center_alignment cell s).2
  ∧ modifies_only [AAlignment; ABorder; AFont] cell s
      (apply_header_cell cell s).2
  ∧ (∀ comment author,
       modifies_only [AComment] cell s (add_comment cell comment author s).2)
  ∧ (∀ format,
       modifies_only [ANumberFormat] cell s
         (apply_number_format cell format s).2)
  ∧ (∀ style color, (get_side style color s).2 = s)
  ∧ (∀ bottom left right top, (get_border bottom left right top s).2 = s).
Proof.
  repeat split; intros; try frame_cell; try frame_others.
Qed.


(** C8: no helper handles an exception.  What the library raises for
    the arguments of a helper reaches the caller as the same exception,
    with the heap as it was: a path that cannot be loaded, a colour or a
    border style the library rejects, the centred alignment.  A helper
    with one assignment that raises has not touched the heap.
    [apply_header_cell] has touched it only when what it raises is the
    refusal of the proxy: then no constructor raised, and the alignment is
    all that was assigned. *)
Theorem failures_propagate cell s :
  (∀ filename data_only e,
     load_workbook filename (default false data_only) = inl e →
     load_wb filename data_only s = (inl e, s))
  ∧ (∀ bold color name size e,
       Font_init (Some bold) (Some color) (Some name) (Some size) = inl e →
       apply_font cell (Some bold) (Some color) (Some name) (Some size) s
       = (inl e, s))
  ∧ (∀ color e,
       PatternFill_init (Some color) (Some color) (Some "solid") = inl e →
       apply_fill cell color s = (inl e, s))
  ∧ (∀ style color e,
       Side_init (Some style) (Some color) = inl e →
       get_side (Some style) (Some color) s = (inl e, s))
  ∧ (∀ e,
       Alignment_init (Some "center") = inl e →
       apply_center_alignment cell s = (inl e, s)
       ∧ apply_header_cell cell s = (inl e, s))
  ∧ (∀ bold color name size,
       all_or_nothing (apply_font cell bold color name size) s)
  ∧ (∀ color, all_or_nothing (apply_fill cell color) s)
  ∧ all_or_nothing (apply_center_alignment cell) s
  ∧ (∀ comment author, all_or_nothing (add_comment cell comment author) s)
  ∧ (∀ format, all_or_nothing (apply_number_format cell format) s)
  ∧ (∀ e s',
       apply_header_cell cell s = (inl e, s') →
       s' = s
       ∨ (e = unhashable_proxy
          ∧ Alignment_init (Some "center") = inr (mkAlignment (Some "center"))
          ∧ ∃ c, s !! cell = Some c ∧ s' = <[cell := centered c]> s)).
Proof.
  unfold all_or_nothing.
  split; [|split; [|split; [|split; [|split; [|split; [|split; [|split;
    [|split; [|split]]]]]]]]];
    try (intros *; run; try (by intros ->);
         repeat case_match; simplify_map_eq; try done;
         intros; by simplify_eq).
  intros e s' Hrun.
  destruct (apply_header_cell_outcome cell s)
    as [(e' & Hraise)|(c & Hcenter & Hc & Hraise)];
    rewrite Hraise in Hrun; simplify_eq; [by left|right].
  split; [done|]. split; [|by eauto].
  unfold Alignment_init, validate. simpl. by rewrite Hcenter.
Qed.

(** C9: the code does not do what the claim says.  [apply_header_cell]
    raises before it reaches the assignment of the font, so the cell keeps
    the font it had: a font that [apply_font] stored is still there after
    the call, and it is not the font built from [bold=True] alone. *)
Theorem apply_header_cell_keeps_the_font cell c s :
  check_horizontal "center" = None →
  s !! cell = Some c →
  (∃ s',
     apply_header_cell cell s = (inl unhashable_proxy, s')
     ∧ cell_font <$> s' !! cell = Some (cell_font c))
  ∧ (∀ bold color name size s1,
       apply_font cell bold color name size s = (inr tt, s1) →
       ∃ f s2,
         cell_font <$> s1 !! cell = Some f
         ∧ apply_header_cell cell s1 = (inl unhashable_proxy, s2)
         ∧ cell_font <$> s2 !! cell = Some f
         ∧ f ≠ mkFont (Some true) None None None).
Proof.
  intros Hcenter Hc. split.
  - eexists. split; [by apply apply_header_cell_run|].
    by rewrite lookup_insert_eq.
  - intros bold color name size s1 Hfont.
    unfold apply_font, bind, call, setattr in Hfont. simpl in Hfont.
    destruct (Font_init _ _ _ _) as [e|v] eqn:Hv; [done|].
    rewrite Hc in Hfont. simplify_eq.
    exists v. eexists. split; [by rewrite lookup_insert_eq|].
    split; [apply (apply_header_cell_run _ (set_font v c)); [done|]
           | split; [by rewrite lookup_insert_eq|]].
    + by rewrite lookup_insert_eq.
    + unfold Font_init, validate in Hv. simpl in Hv.
      destruct (check_color _); by simplify_eq.
Qed.


End Properties.

(** * How calls of the helpers compose *)

Section Composition.
Context `{!Openpyxl}.
Implicit Types (cell : loc) (c : Cell) (s : heap) (e : exn) (a : formatting).

Lemma header_is_refused : refusal Header ≠ None.
Proof. simpl. by destruct (check_horizontal "center"). Qed.

Lemma perform_run a cell c s :
  refusal a = None →
  s !! cell = Some c →
  perform a cell s = (inr tt, <[cell := effect a c]> s).
Proof.
  intros Hok Hc. destruct a; simpl in *.
  - apply apply_font_run; [|done]. unfold Font_init, validate. simpl.
    by rewrite Hok.
  - apply apply_fill_run; [|done]. unfold PatternFill_init, validate. simpl.
    destruct (check_fill_type "solid"); [done|].
    by destruct (check_color color).
  - unfold bind. by rewrite (apply_center_alignment_run _ c).
  - by destruct (check_horizontal "center").
  - run. by rewrite Hc.
  - run. by rewrite Hc.
Qed.

Lemma perform_refused a cell c s e :
  refusal a = Some e →
  s !! cell = Some c →
  ∃ c', perform a cell s = (inl e, <[cell := c']> s).
Proof.
  intros Hno Hc.
  assert (s = <[cell := c]> s) as Hs by (by rewrite insert_id).
  destruct a; simpl in *; try done.
  - exists c. rewrite <- Hs. run. by rewrite Hno.
  - exists c. rewrite <- Hs. run.
    destruct (check_fill_type "solid"); simplify_eq; [done|].
    by destruct (check_color color); simplify_eq.
  - exists c. rewrite <- Hs. run. by rewrite Hno.
  - destruct (check_horizontal "center") eqn:Hcenter; simplify_eq.
    + exists c. rewrite <- Hs. run. by rewrite Hcenter.
    + exists (centered c). by apply apply_header_cell_run.
Qed.

Lemma perform_dangling a cell s :
  s !! cell = None → ∃ e, perform a cell s = (inl e, s).
Proof.
  intros Hc. destruct a; simpl; run; rewrite ?Hc; repeat case_match;
    simplify_eq; eauto.
Qed.

Lemma perform_succeeds a cell s :
  succeeds (perform a cell) s → refusal a = None ∧ ∃ c, s !! cell = Some c.
Proof.
  intros ([] & s' & Hrun).
  destruct (s !! cell) as [c|] eqn:Hc.
  - destruct (refusal a) as [e|] eqn:Hno; [|eauto].
    destruct (perform_refused _ _ _ _ _ Hno Hc) as (c' & Hraise). congruence.
  - destruct (perform_dangling a _ _ Hc) as (e & Hraise). congruence.
Qed.

Lemma perform_twice_run a1 a2 cell c s :
  refusal a1 = None →
  refusal a2 = None →
  s !! cell = Some c →
  (perform a1 cell ;;; perform a2 cell) s
  = (inr tt, <[cell := effect a2 (effect a1 c)]> s).
Proof.
  intros Hok1 Hok2 Hc. unfold bind. rewrite (perform_run a1 _ c) by done.
  rewrite (perform_run a2 _ (effect a1 c)) by (done || by rewrite lookup_insert_eq).
  by rewrite insert_insert_eq.
Qed.

(** X1: two calls about different attributes of a cell can be made in
    either order: when each of them returns, both orders return and leave
    the same heap. *)
Theorem disjoint_formattings_commute a1 a2 cell s :
  (∀ x, x ∈ targets a1 → x ∉ targets a2) →
  succeeds (perform a1 cell) s →
  succeeds (perform a2 cell) s →
  ∃ s',
    (perform a1 cell ;;; perform a2 cell) s = (inr tt, s')
    ∧ (perform a2 cell ;;; perform a1 cell) s = (inr tt, s').
Proof.
  intros Hdisjoint (Hok1 & c & Hc)%perform_succeeds (Hok2 & _)%perform_succeeds.
  rewrite !(perform_twice_run _ _ _ c) by done.
  eexists. split; [done|]. do 2 f_equal.
  clear Hok1 Hok2 Hc.
  destruct a1, a2; try reflexivity; exfalso; simpl in Hdisjoint; set_solver.
Qed.


(** X3: a call replaces what an earlier call about no other attributes
    had written: when each of them returns, the two in a row return and
    leave the heap that the later one leaves alone.  So a later
    [apply_font] replaces an earlier one, whatever the arguments of the
    two. *)
Theorem later_formatting_overrides a1 a2 cell s :
  (∀ x, x ∈ targets a1 → x ∈ targets a2) →
  succeeds (perform a1 cell) s →
  succeeds (perform a2 cell) s →
  ∃ s',
    perform a2 cell s = (inr tt, s')
    ∧ (perform a1 cell ;;; perform a2 cell) s = (inr tt, s').
Proof.
  intros Hsub (Hok1 & c & Hc)%perform_succeeds (Hok2 & _)%perform_succeeds.
  rewrite (perform_twice_run _ _ _ c), (perform_run a2 _ c) by done.
  eexists. split; [done|]. do 2 f_equal.
  apply Forall_forall in Hsub.
  destruct a1, a2; try reflexivity; exfalso;
    try (by apply header_is_refused); simpl in Hsub;
    repeat match goal with
           | H : Forall _ (_ :: _) |- _ => apply Forall_cons in H as [? H]
           end;
    repeat match goal with
           | H : _ ∈ [] |- _ => by apply elem_of_nil in H
           | H : _ ∈ _ :: _ |- _ =>
             apply elem_of_cons in H as [H|H]; [discriminate H|]
           end.
Qed.

(** X4: no call creates or removes a cell, whether it returns or raises:
    the heap holds the same cells after it as before. *)
Theorem formatting_keeps_the_cells a cell s :
  dom (perform a cell s).2 = dom s.
Proof.
  destruct (s !! cell) as [c|] eqn:Hc.
  - destruct (refusal a) as [e|] eqn:Hno.
    + destruct (perform_refused _ _ _ _ _ Hno Hc) as (c' & ->). simpl.
      by apply dom_insert_lookup_L.
    + rewrite (perform_run _ _ c) by done. simpl.
      by apply dom_insert_lookup_L.
  - by destruct (perform_dangling a _ _ Hc) as (e & ->).
Qed.

(** X5: whether a call returns or raises, and what it raises, depends on
    its arguments alone: it is the same on every cell of every heap,
    however the cell is formatted. *)
Theorem formatting_outcome_ignores_the_cell a cell1 cell2 s1 s2 :
  is_Some (s1 !! cell1) →
  is_Some (s2 !! cell2) →
  (perform a cell1 s1).1 = (perform a cell2 s2).1.
Proof.
  intros [c1 Hc1] [c2 Hc2]. destruct (refusal a) as [e|] eqn:Hno.
  - destruct (perform_refused _ _ _ _ _ Hno Hc1) as (? & ->).
    by destruct (perform_refused _ _ _ _ _ Hno Hc2) as (? & ->).
  - by rewrite (perform_run _ _ c1), (perform_run _ _ c2).
Qed.

End Composition.

(** * The helpers on the sample library *)

Section Sample.
Local Existing Instance sample_library.
Local Open Scope positive_scope.

(** A colour that is not hexadecimal is refused by the library, and
    [apply_font] hands the refusal on with the heap as it was. *)
Example apply_font_bad_color :
  apply_font 1 None (Some "red") None None sample_heap
  = (inl (Raise "ValueError" "Colors must be aRGB hex values"), sample_heap).
Proof. reflexivity. Qed.

(** The header call on a formatted cell: the alignment is centred, the
    call raises, and nothing else of the cell has changed. *)
Example apply_header_cell_sample :
  apply_header_cell 1 sample_heap
  = (inl unhashable_proxy, <[1 := centered sample_cell]> sample_heap).
Proof. vm_compute. reflexivity. Qed.

Example load_wb_missing :
  load_wb "nowhere.xlsx" None sample_heap
  = (inl (Raise "FileNotFoundError" "nowhere.xlsx"), sample_heap).
Proof. reflexivity. Qed.

Lemma apply_header_cell_stops_after_centering_witness :
  check_horizontal "center" = None
  ∧ sample_heap !! 1 = Some sample_cell
  ∧ ∃ s' c',
      apply_header_cell 1 sample_heap = (inl unhashable_proxy, s')
      ∧ s' !! 1 = Some c'
      ∧ horizontal (cell_alignment c') = Some "center"
      ∧ cell_border c' = cell_border sample_cell
      ∧ cell_font c' = cell_font sample_cell.
Proof.
  split; [reflexivity|]. split; [reflexivity|].
  apply (apply_header_cell_stops_after_centering 1 sample_cell sample_heap);
    reflexivity.
Defined.

Lemma helpers_assign_constructed_witness :
  sample_heap !! 1 = Some sample_cell
  ∧ assigns
      (apply_font 1 (Some true) (Some "FF0000") (Some "Calibri") (Some 12%Z))
      1 cell_font
      (mkFont (Some true) (Some "FF0000") (Some "Calibri") (Some 12%Z))
      sample_heap
  ∧ assigns (apply_fill 1 "00FF00") 1 cell_fill
      (mkPatternFill (Some "solid") (Some "00FF00") (Some "00FF00"))
      sample_heap
  ∧ assigns (add_comment 1 "recheck" "rui") 1 cell_comment
      (Some (mkComment "recheck" "rui")) sample_heap
  ∧ assigns (apply_number_format 1 (Some "MM/YYYY")) 1 cell_number_format
      "MM/YYYY" sample_heap.
Proof.
  split; [reflexivity|].
  destruct (helpers_assign_constructed 1 sample_cell sample_heap eq_refl)
    as (Hfont & Hfill & Hcomment & Hformat).
  split; [apply Hfont; reflexivity|].
  split; [apply Hfill; reflexivity|].
  split; [apply Hcomment; reflexivity|].
  apply Hformat.
Defined.

Lemma documented_defaults_witness :
  sample_heap !! 2 = Some blank_cell
  ∧ check_color "00000000" = None
  ∧ accepts_default_side
  ∧ assigns (apply_font 2 None None None None) 2 cell_font
      (mkFont (Some false) (Some "00000000") (Some "Arial") (Some 10%Z))
      sample_heap
  ∧ assigns (apply_number_format 2 None) 2 cell_number_format
      "R$ #,##0.00" sample_heap
  ∧ get_side None None sample_heap
    = (inr (mkSide (Some "medium") (Some "000000")), sample_heap).
Proof.
  split; [reflexivity|]. split; [reflexivity|].
  split; [split; reflexivity|].
  apply (documented_defaults 2 blank_cell sample_heap);
    [reflexivity | reflexivity | split; reflexivity].
Defined.

Lemma load_wb_data_only_witness :
  disk !! "book.xlsx" = Some sample_document
  ∧ ∃ wb,
      load_wb "book.xlsx" (Some true) sample_heap = (inr wb, sample_heap)
      ∧ wb !! "B1" = Some (Lit (LInt 42))
      ∧ wb !! "B2" = Some (Lit LNone)
      ∧ ∀ k f, wb !! k ≠ Some (FormulaStr f).
Proof.
  split; [reflexivity|].
  destruct (load_wb_data_only "book.xlsx" sample_document sample_heap)
    as (_ & _ & wb & Hload & _ & _ & Hformula & Hnone); [reflexivity|].
  exists wb. split; [exact Hload|].
  split; [apply (Hformula "B1" "=A1*21"); reflexivity|].
  split; [apply (Hformula "B2" "=B1+1"); reflexivity|].
  exact Hnone.
Defined.

Lemma apply_center_alignment_returns_stored_witness :
  check_horizontal "center" = None
  ∧ sample_heap !! 2 = Some blank_cell
  ∧ ∃ a s',
      apply_center_alignment 2 sample_heap = (inr a, s')
      ∧ horizontal a = Some "center"
      ∧ cell_alignment <$> s' !! 2 = Some a.
Proof.
  split; [reflexivity|]. split; [reflexivity|].
  apply (apply_center_alignment_returns_stored 2 blank_cell sample_heap);
    reflexivity.
Defined.

Lemma failures_propagate_witness :
  apply_font 1 (Some false) (Some "red") (Some "Arial") (Some 10%Z)
    sample_heap
  = (inl (Raise "ValueError" "Colors must be aRGB hex values"), sample_heap)
  ∧ get_side (Some "wavy") (Some "000000") sample_heap
    = (inl (Raise "ValueError" "unsupported border style"), sample_heap)
  ∧ load_wb "nowhere.xlsx" None sample_heap
    = (inl (Raise "FileNotFoundError" "nowhere.xlsx"), sample_heap)
  ∧ all_or_nothing (apply_fill 1 "yellow") sample_heap
  ∧ (∀ e s',
       apply_header_cell 1 sample_heap = (inl e, s') →
       s' = sample_heap
       ∨ (e = unhashable_proxy
          ∧ Alignment_init (Some "center") = inr (mkAlignment (Some "center"))
          ∧ ∃ c,
              sample_heap !! 1 = Some c
              ∧ s' = <[1 := centered c]> sample_heap)).
Proof.
  destruct (failures_propagate 1 sample_heap)
    as (Hload & Hfont & _ & Hside & _ & _ & Hfill & _ & _ & _ & Hheader).
  split; [apply Hfont; reflexivity|].
  split; [apply Hside; reflexivity|].
  split; [apply Hload; reflexivity|].
  split; [apply Hfill|exact Hheader].
Defined.

Lemma apply_header_cell_keeps_the_font_witness :
  check_horizontal "center" = None
  ∧ sample_heap !! 2 = Some blank_cell
  ∧ ∃ f s1 s2,
      apply_font 2 None None None None sample_heap = (inr tt, s1)
      ∧ cell_font <$> s1 !! 2 = Some f
      ∧ apply_header_cell 2 s1 = (inl unhashable_proxy, s2)
      ∧ cell_font <$> s2 !! 2 = Some f
      ∧ f ≠ mkFont (Some true) None None None.
Proof.
  split; [reflexivity|]. split; [reflexivity|].
  destruct (apply_header_cell_keeps_the_font 2 blank_cell sample_heap)
    as (_ & Hafter); [reflexivity | reflexivity |].
  pose (s1 := <[2 := set_font
                      (mkFont (Some false) (Some "00000000") (Some "Arial")
                         (Some 10%Z)) blank_cell]> sample_heap).
  destruct (Hafter None None None None s1)
    as (f & s2 & Hstored & Hraise & Hkept & Hother); [reflexivity|].
  exists f, s1, s2. split; [reflexivity|].
  split; [exact Hstored|]. split; [exact Hraise|].
  split; [exact Hkept|exact Hother].
Defined.

End Sample.

(** * Composition on the sample library *)

Section CompositionSample.
Local Existing Instance sample_library.
Local Open Scope positive_scope.

Lemma disjoint_formattings_commute_witness :
  (∀ x, x ∈ targets (SetFill "00FF00") →
        x ∉ targets (SetFont (Some true) None None None))
  ∧ succeeds (perform (SetFill "00FF00") 1) sample_heap
  ∧ succeeds (perform (SetFont (Some true) None None None) 1) sample_heap
  ∧ ∃ s',
      (perform (SetFill "00FF00") 1 ;;;
       perform (SetFont (Some true) None None None) 1) sample_heap
      = (inr tt, s')
      ∧ (perform (SetFont (Some true) None None None) 1 ;;;
         perform (SetFill "00FF00") 1) sample_heap
        = (inr tt, s').
Proof.
  assert (∀ x, x ∈ targets (SetFill "00FF00") →
               x ∉ targets (SetFont (Some true) None None None)) as Hdisjoint.
  { intros x ->%list_elem_of_singleton Hin%list_elem_of_singleton.
    discriminate Hin. }
  assert (succeeds (perform (SetFill "00FF00") 1) sample_heap) as Hfill
    by (do 2 eexists; reflexivity).
  assert (succeeds (perform (SetFont (Some true) None None None) 1) sample_heap)
    as Hfont by (do 2 eexists; reflexivity).
  split; [exact Hdisjoint|]. split; [exact Hfill|]. split; [exact Hfont|].
  exact (disjoint_formattings_commute _ _ _ _ Hdisjoint Hfill Hfont).
Defined.


Lemma later_formatting_overrides_witness :
  (∀ x, x ∈ targets (SetFont None (Some "FF0000") None (Some 14%Z)) →
        x ∈ targets (SetFont (Some true) None (Some "Calibri") None))
  ∧ succeeds (perform (SetFont None (Some "FF0000") None (Some 14%Z)) 2)
      sample_heap
  ∧ succeeds (perform (SetFont (Some true) None (Some "Calibri") None) 2)
      sample_heap
  ∧ ∃ s',
      perform (SetFont (Some true) None (Some "Calibri") None) 2 sample_heap
      = (inr tt, s')
      ∧ (perform (SetFont None (Some "FF0000") None (Some 14%Z)) 2 ;;;
         perform (SetFont (Some true) None (Some "Calibri") None) 2)
          sample_heap
        = (inr tt, s').
Proof.
  assert (∀ x, x ∈ targets (SetFont None (Some "FF0000") None (Some 14%Z)) →
               x ∈ targets (SetFont (Some true) None (Some "Calibri") None))
    as Hsub by (intros x Hx; exact Hx).
  assert (succeeds (perform (SetFont None (Some "FF0000") None (Some 14%Z)) 2)
            sample_heap) as Hfirst by (do 2 eexists; reflexivity).
  assert (succeeds (perform (SetFont (Some true) None (Some "Calibri") None) 2)
            sample_heap) as Hlater by (do 2 eexists; reflexivity).
  split; [exact Hsub|]. split; [exact Hfirst|]. split; [exact Hlater|].
  exact (later_formatting_overrides _ _ _ _ Hsub Hfirst Hlater).
Defined.

Lemma formatting_outcome_ignores_the_cell_witness :
  is_Some (sample_heap !! 1)
  ∧ is_Some (sample_heap !! 2)
  ∧ (perform (SetFont None (Some "red") None None) 1 sample_heap).1
    = (perform (SetFont None (Some "red") None None) 2 sample_heap).1.
Proof.
  assert (is_Some (sample_heap !! 1)) as H1 by (eexists; reflexivity).
  assert (is_Some (sample_heap !! 2)) as H2 by (eexists; reflexivity).
  split; [exact H1|]. split; [exact H2|].
  exact (formatting_outcome_ignores_the_cell _ 1 2 sample_heap sample_heap H1 H2).
Defined.

End CompositionSample.
